(** * Rheology frequency-sweep plotter ([rheology.py])

    A shallow embedding of the spreadsheet loader, the column matching and
    the plot builder of [rheology.py], with the properties of its
    specification.

    Conventions of the embedding.
    - A Python [str] is a [string] whose characters are the code points
      below 256; [str.lower], [str.strip] and [in] are written out for that
      range.
    - A pandas data frame is a record of column labels and rows of cells;
      a label is text or some other object (the number or date of a header
      cell that is not text), on which [strip] raises. Frames are objects
      on a heap, because [create_rheology_plot] assigns to [df.columns] of
      the frames its caller owns.
    - The Excel decoders behind [pd.read_excel], the naming of header cells
      and the conversion of a non-numeric cell are parameters of the
      development.
    - A figure is the list of the [ax.plot] calls made on its axes, with
      the settings of lines 44-57; whether matplotlib accepts a call or
      raises is a parameter too. *)

From Stdlib Require Import Ascii NArith.
From stdpp Require Import gmap strings list fin_maps.

(** ** Python strings *)

Module PyStr.

Definition code (c : ascii) : N := N_of_ascii c.

(** [str.isspace] on one character: TAB..CR, FS..US, SPACE, NEL, NBSP. *)
Definition isspace (c : ascii) : bool :=
  let n := code c in
  ((9 <=? n) && (n <=? 13) || (28 <=? n) && (n <=? 32)
   || (n =? 133) || (n =? 160))%N.

(** Upper-case letters: A..Z and the Latin-1 capitals (all of 192..222
    but the multiplication sign 215). *)
Definition isupper (c : ascii) : bool :=
  let n := code c in
  ((65 <=? n) && (n <=? 90)
   || (192 <=? n) && (n <=? 222) && negb (n =? 215))%N.

Definition lower_char (c : ascii) : ascii :=
  if isupper c then ascii_of_N (code c + 32) else c.

(** [s.lower()] *)
Fixpoint lower (s : string) : string :=
  match s with
  | EmptyString => EmptyString
  | String c s' => String (lower_char c) (lower s')
  end.

(** [s.lstrip()] *)
Fixpoint lstrip (s : string) : string :=
  match s with
  | EmptyString => EmptyString
  | String c s' => if isspace c then lstrip s' else s
  end.

(** [s.rstrip()] *)
Fixpoint rstrip (s : string) : string :=
  match s with
  | EmptyString => EmptyString
  | String c s' =>
      match rstrip s' with
      | EmptyString => if isspace c then EmptyString else String c EmptyString
      | r => String c r
      end
  end.

(** [s.strip()] *)
Definition strip (s : string) : string := rstrip (lstrip s).

(** [s.startswith(p)] *)
Fixpoint startswith (s p : string) {struct p} : bool :=
  match p, s with
  | EmptyString, _ => true
  | String _ _, EmptyString => false
  | String a p', String b s' =>
      if decide (a = b) then startswith s' p' else false
  end.

(** [t in s] on strings: [t] occurs in [s] as a contiguous substring. *)
Fixpoint str_in (t s : string) : bool :=
  startswith s t ||
  match s with
  | EmptyString => false
  | String _ s' => str_in t s'
  end.

(** [s.endswith(x)] *)
Fixpoint endswith (s x : string) : bool :=
  if decide (s = x) then true
  else match s with
       | EmptyString => false
       | String _ s' => endswith s' x
       end.

(** Truth value of a string: the empty string is false. *)
Definition truthy (s : string) : bool :=
  match s with EmptyString => false | String _ _ => true end.

(** The occurrence relation [str_in] decides. *)
Definition occurs_in (t s : string) : Prop :=
  ∃ p q : string, s = p +:+ t +:+ q.

(** A string made of white space only. *)
Fixpoint all_space (s : string) : bool :=
  match s with
  | EmptyString => true
  | String c s' => isspace c && all_space s'
  end.

End PyStr.

(** ** Exceptions *)

Inductive exn : Type :=
  | ExcelError (msg : string)   (* the decoder rejects the file *)
  | SheetIndexError             (* [sheet_name] beyond the last sheet *)
  | HeaderRowError              (* [header] beyond the last row *)
  | TypeError                   (* [pd.to_numeric] on a frame *)
  | AttributeError              (* [strip] on a label that is not text *)
  | MatplotlibError (msg : string).  (* raised while drawing or saving *)

Inductive result (A : Type) : Type :=
  | Ok (a : A)
  | Raise (e : exn).
Arguments Ok {A} a.
Arguments Raise {A} e.

#[global] Instance result_ret : MRet result := λ A a, Ok a.
#[global] Instance result_bind : MBind result := λ A B f m,
  match m with
  | Ok a => f a
  | Raise e => Raise e
  end.

(** ** Cells and data frames *)

(** What the program takes from pandas about numbers: a cell holds a
    [float] (a number that is not NaN), some other object (text, a truth
    value, a date) or NaN; [coerce] is [pd.to_numeric(..., errors='coerce')]
    on one object, [None] when the object is not numeric. *)
Class Numeric : Type := {
  float : Type;
  obj : Type;
  coerce : obj → option float
}.

Inductive cell `{Numeric} : Type :=
  | Num (x : float)
  | Obj (o : obj)
  | NaN.

Inductive engine : Set := openpyxl | xlrd.

(** A column label: the text of a header cell, or the object pandas keeps
    for a header cell that is not text (an int, a float, a date), here
    told apart by a number. *)
Inductive Label : Set :=
  | Text (s : string)
  | NonText (k : Z).

#[global] Instance Label_eq_dec : EqDecision Label.
Proof. solve_decision. Defined.

(** What the program takes from the Excel readers: [open_workbook] decodes
    the bytes of a file into sheets of rows of cells, or raises;
    [header_labels] names the columns after the cells of the header row. *)
Class ExcelReader `{Numeric} : Type := {
  open_workbook : engine → string → result (list (list (list cell)));
  header_labels : list cell → list Label
}.

Section Frames.
Context `{Numeric}.

Record DataFrame : Type := {
  columns : list Label;
  rows : list (list cell)
}.

(** [df.empty]: some axis has length zero. *)
Definition df_empty (df : DataFrame) : bool :=
  match columns df, rows df with
  | [], _ => true
  | _, [] => true
  | _, _ => false
  end.

(** [df.columns = labels] *)
Definition set_columns (labels : list Label) (df : DataFrame) : DataFrame :=
  {| columns := labels; rows := rows df |}.

(** The column at position [j], top to bottom. *)
Definition column_at (j : nat) (df : DataFrame) : list cell :=
  (λ r, default NaN (r !! j)) <$> rows df.

(** The positions of the columns labelled [c]. *)
Definition positions (c : Label) (labels : list Label) : list nat :=
  filter (λ j, labels !! j = Some c) (seq 0 (length labels)).

(** [df[c]]: the data of every column labelled [c] (one column when the
    label is unique). *)
Definition getitem (df : DataFrame) (c : Label) : list (list cell) :=
  (λ j, column_at j df) <$> positions c (columns df).

(** [df.iloc[1:].reset_index(drop=True)] *)
Definition iloc_from_1 (df : DataFrame) : DataFrame :=
  {| columns := columns df; rows := tail (rows df) |}.

(** [df.head()] *)
Definition df_head (df : DataFrame) : DataFrame :=
  {| columns := columns df; rows := take 5 (rows df) |}.

(** [pd.to_numeric(..., errors='coerce')] on one cell. *)
Definition to_numeric (v : cell) : cell :=
  match v with
  | Num x => Num x
  | Obj o => match coerce o with Some x => Num x | None => NaN end
  | NaN => NaN
  end.

(** Writes [vals] over the column at position [j]. *)
Definition set_column_at (j : nat) (vals : list cell) (df : DataFrame) : DataFrame :=
  {| columns := columns df;
     rows := zip_with (λ r v, <[j := v]> r) (rows df) vals |}.

(** [df[col] = pd.to_numeric(df[col], errors='coerce')]. With a label
    that two columns carry, [df[col]] is a frame and [pd.to_numeric]
    raises. *)
Definition to_numeric_column (df : DataFrame) (col : Label) : result DataFrame :=
  match positions col (columns df) with
  | [j] => Ok (set_column_at j (to_numeric <$> column_at j df) df)
  | _ => Raise TypeError
  end.

(** [for col in df.columns: df[col] = pd.to_numeric(df[col], ...)] *)
Fixpoint to_numeric_columns (cols : list Label) (df : DataFrame) : result DataFrame :=
  match cols with
  | [] => Ok df
  | col :: cols' => df' ← to_numeric_column df col; to_numeric_columns cols' df'
  end.

Definition notna (v : cell) : bool :=
  match v with NaN => false | _ => true end.

(** [df.dropna(inplace=True)]: a row with a NaN in any column goes. *)
Definition dropna (df : DataFrame) : DataFrame :=
  {| columns := columns df; rows := filter (Forall notna) (rows df) |}.

Definition is_num (v : cell) : Prop :=
  match v with Num _ => True | _ => False end.

(** Cuts or pads (with NaN) a row to [n] cells; the readers hand over a
    rectangular grid, on which this is the identity. *)
Definition fit (n : nat) (r : list cell) : list cell :=
  take n (r ++ replicate n NaN).

End Frames.

(** ** Column matching (lines 29-34) *)

Section Resolver.
Import PyStr.

(** [c.strip().lower()], what line 29 stores for a column label [c]. *)
Definition normalize (c : string) : string := lower (strip c).

(** The right-hand side of line 29, [[c.strip().lower() for c in
    df.columns]]: a label that is not text has no [strip], and the
    comprehension raises. *)
Fixpoint normalized_labels (labels : list Label) : result (list string) :=
  match labels with
  | [] => Ok []
  | Text c :: rest => cs ← normalized_labels rest; mret (normalize c :: cs)
  | NonText _ :: _ => Raise AttributeError
  end.

(** [next((c for c in cols if target in c), None)] *)
Fixpoint next_match (target : string) (cols : list string) : option string :=
  match cols with
  | [] => None
  | c :: cols' => if str_in target c then Some c else next_match target cols'
  end.

(** The column resolver on the labels of a frame: the labels are
    normalized (line 29), the target is lower-cased (lines 30-31), the
    first label containing the target is taken (lines 33-34). *)
Definition column_resolver (labels : list string) (target : string) : option string :=
  next_match (lower target) (normalize <$> labels).

(** The truth value the [if] of line 36 gives to a resolved column:
    [None] and the empty string are false. *)
Definition found (actual : option string) : bool :=
  match actual with
  | None => false
  | Some c => truthy c
  end.

End Resolver.

(** ** The page, the figure and the session's objects *)

(** What Streamlit shows: [st.warning] of line 26, [st.warning] of line 40,
    [st.error] of line 124 (with the file's name and the exception). *)
Inductive message : Type :=
  | WarnNoData (name : string)
  | WarnNoColumn (name x_col y_col : string)
  | ErrorFile (name : string) (e : exn).

Inductive scale : Set := linear | log.

(** The file handle Streamlit gives for an upload. *)
Record UploadedFile : Type := {
  file_id : nat;
  name : string;
  content : string
}.

Section Drawing.
Context `{Numeric}.

(** One [ax.plot(df[x], df[y], marker='o', linestyle='-', label=name)]. *)
Record series : Type := {
  xdata : list (list cell);
  ydata : list (list cell);
  label : string
}.

(** The figure: the lines drawn and the settings of lines 44-57. *)
Record Figure : Type := {
  fig_lines : list series;
  fig_xscale : scale;
  fig_yscale : scale;
  fig_xlabel : string;
  fig_ylabel : string;
  fig_title : string
}.

End Drawing.

(** What the program takes from matplotlib: [ax_plot] is the call of
    line 37 on the axes, [None] when the line is drawn and the exception
    when matplotlib refuses the data; [savefig] is lines 44-63 on the
    figure (scales, formatters, labels, grid, legend, layout, saving at 300
    dpi), the PNG bytes or the exception raised on the way. *)
Class Matplotlib `{Numeric} : Type := {
  ax_plot : series → option exn;
  savefig : Figure → result string
}.

Section App.
Context `{Numeric} `{!ExcelReader} `{!Matplotlib}.
Import PyStr.

(** *** The loader (lines 106-124) *)

(** [pd.read_excel(io, engine=engine, sheet_name=sheet_name, header=header)]:
    the sheet at index [sheet_name], the row at index [header] as header,
    the rows below it as data. A sheet index out of range raises; a sheet
    without any row gives the frame without columns; a header row beyond
    the last row raises. *)
Definition read_excel (io : UploadedFile) (eng : engine) (sheet_name header : nat)
  : result DataFrame :=
  wb ← open_workbook eng (content io);
  match wb !! sheet_name with
  | None => Raise SheetIndexError
  | Some [] => Ok {| columns := []; rows := [] |}
  | Some sheet =>
      match sheet !! header with
      | None => Raise HeaderRowError
      | Some hdr =>
          let labels := header_labels hdr in
          Ok {| columns := labels;
                rows := fit (length labels) <$> drop (S header) sheet |}
      end
  end.

Definition engine_for (file_name : string) : engine :=
  if endswith (lower file_name) ".xlsx" then openpyxl else xlrd.

(** Lines 110-111: [df_original] and [df_processed] before the numeric
    conversion. *)
Definition read_original (uploaded_file : UploadedFile) : result DataFrame :=
  read_excel uploaded_file (engine_for (name uploaded_file)) 1 1.

Definition drop_units_row (df_original : DataFrame) : DataFrame :=
  iloc_from_1 df_original.

(** Lines 108-114, the body of the [try] up to the cleaned table:
    [(df_original, df_processed)]. *)
Definition load_file (uploaded_file : UploadedFile) : result (DataFrame * DataFrame) :=
  df_original ← read_original uploaded_file;
  let df_processed := drop_units_row df_original in
  df_processed ← to_numeric_columns (columns df_processed) df_processed;
  mret (df_original, dropna df_processed).

(** One entry of [debug_info]; the inferred dtypes are left out. Both
    heads are frames of their own, made when the file is loaded. *)
Record debug_entry : Type := {
  dbg_name : string;
  original_columns : list Label;
  original_head : DataFrame;
  processed_head : DataFrame
}.

(** The objects of one run: the frames (by reference), the two lists the
    loop fills and what has been written on the page. *)
Record session : Type := {
  heap : gmap nat DataFrame;
  dataframes : list (nat * string);
  debug_info : list debug_entry;
  page : list message
}.

Definition new_session : session :=
  {| heap := ∅; dataframes := []; debug_info := []; page := [] |}.

(** One turn of the loop of line 106, [try] and [except] included. *)
Definition load_step (s : session) (uploaded_file : UploadedFile) : session :=
  match load_file uploaded_file with
  | Ok (df_original, df_processed) =>
      let ref := fresh (dom (heap s)) in
      {| heap := <[ref := df_processed]> (heap s);
         dataframes := dataframes s ++ [(ref, name uploaded_file)];
         debug_info := debug_info s ++
           [{| dbg_name := name uploaded_file;
               original_columns := columns df_original;
               original_head := df_head df_original;
               processed_head := df_head df_processed |}];
         page := page s |}
  | Raise e =>
      {| heap := heap s;
         dataframes := dataframes s;
         debug_info := debug_info s;
         page := page s ++ [ErrorFile (name uploaded_file) e] |}
  end.

Definition load_files (uploaded_files : list UploadedFile) : session :=
  foldl load_step new_session uploaded_files.

(** *** The plot builder (lines 16-67) *)

(** The state the loop of line 24 works on. *)
Record plot_state : Type := {
  frames : gmap nat DataFrame;
  ax_lines : list series;
  plot_success_count : nat;
  warnings : list message
}.

(** How the loop ends: the list is exhausted, line 41 returns, or an
    exception leaves the function (from line 29 or from line 37). *)
Inductive loop_exit : Type :=
  | Exhausted (s : plot_state)
  | Returned (s : plot_state)
  | Raised (e : exn) (s : plot_state).

Definition state_of (e : loop_exit) : plot_state :=
  match e with Exhausted s | Returned s | Raised _ s => s end.

Fixpoint plot_loop (dataframes_with_names : list (nat * string))
    (x_col y_col : string) (s : plot_state) : loop_exit :=
  match dataframes_with_names with
  | [] => Exhausted s
  | (ref, name) :: rest =>
      match frames s !! ref with
      | None => plot_loop rest x_col y_col s  (* a reference always has its object *)
      | Some df =>
          if df_empty df then
            plot_loop rest x_col y_col
              {| frames := frames s; ax_lines := ax_lines s;
                 plot_success_count := plot_success_count s;
                 warnings := warnings s ++ [WarnNoData name] |}
          else
            match normalized_labels (columns df) with
            | Raise e => Raised e s
            | Ok cols =>
                let df := set_columns (Text <$> cols) df in
                let frames' := <[ref := df]> (frames s) in
                let target_x_col_lower := lower x_col in
                let target_y_col_lower := lower y_col in
                let actual_x_col := next_match target_x_col_lower cols in
                let actual_y_col := next_match target_y_col_lower cols in
                if found actual_x_col && found actual_y_col then
                  let line :=
                    {| xdata := getitem df (Text (default "" actual_x_col));
                       ydata := getitem df (Text (default "" actual_y_col));
                       label := name |} in
                  match ax_plot line with
                  | Some e =>
                      Raised e
                        {| frames := frames'; ax_lines := ax_lines s;
                           plot_success_count := plot_success_count s;
                           warnings := warnings s |}
                  | None =>
                      plot_loop rest x_col y_col
                        {| frames := frames';
                           ax_lines := ax_lines s ++ [line];
                           plot_success_count := S (plot_success_count s);
                           warnings := warnings s |}
                  end
                else
                  Returned
                    {| frames := frames'; ax_lines := ax_lines s;
                       plot_success_count := plot_success_count s;
                       warnings := warnings s ++ [WarnNoColumn name x_col y_col] |}
            end
      end
  end.

Definition plot_start (frames : gmap nat DataFrame) : plot_state :=
  {| frames := frames; ax_lines := []; plot_success_count := 0; warnings := [] |}.

(** Lines 43-67 after the loop: [(fig, buf)], [None] for [(None, None)],
    or the exception that leaves the function. *)
Definition plot_result (e : loop_exit) (title x_label y_label : string)
  : result (option (Figure * string)) :=
  match e with
  | Raised e _ => Raise e
  | Returned _ => Ok None
  | Exhausted s =>
      if bool_decide (0 < plot_success_count s) then
        let fig := {| fig_lines := ax_lines s;
                      fig_xscale := log; fig_yscale := log;
                      fig_xlabel := x_label; fig_ylabel := y_label;
                      fig_title := title |} in
        buf ← savefig fig; mret (Some (fig, buf))
      else Ok None
  end.

(** [create_rheology_plot]: the value returned or the exception raised,
    the frames after the call and the warnings shown. *)
Definition create_rheology_plot (store : gmap nat DataFrame)
    (dataframes_with_names : list (nat * string))
    (x_col y_col title x_label y_label : string)
  : result (option (Figure * string)) * gmap nat DataFrame * list message :=
  let e := plot_loop dataframes_with_names x_col y_col (plot_start store) in
  (plot_result e title x_label y_label, frames (state_of e), warnings (state_of e)).

(** *** The page script (lines 8-13 and 102-145) *)

Definition COLUMN_NAMES_frequency : string := "Angular Frequency".
Definition COLUMN_NAMES_g_prime : string := "Storage modulus".
Definition COLUMN_NAMES_g_double_prime : string := "Loss modulus".
Definition COLUMN_NAMES_complex_viscosity : string := "Complex viscosity".

(** What one run leaves: the session after the plot calls, the figures
    shown ([None] where no chart is shown) and the exception, if any, that
    no handler caught and that ended the run. *)
Record rendered : Type := {
  final : session;
  fig_g_prime : option Figure;
  fig_g_double_prime : option Figure;
  fig_viscosity : option Figure;
  uncaught : option exn
}.

(** One of the three sections: the plot call on the shared frames. *)
Definition plot_section (s : session) (y_col title x_label y_label : string)
  : result (option (Figure * string)) * session :=
  let '(returned, store, warns) :=
    create_rheology_plot (heap s) (dataframes s)
      COLUMN_NAMES_frequency y_col title x_label y_label in
  (returned, {| heap := store; dataframes := dataframes s;
                debug_info := debug_info s; page := page s ++ warns |}).

Definition run (uploaded_files : list UploadedFile) : rendered :=
  let s0 := load_files uploaded_files in
  match dataframes s0 with
  | [] => {| final := s0; fig_g_prime := None; fig_g_double_prime := None;
             fig_viscosity := None; uncaught := None |}
  | _ :: _ =>
      let '(r1, s1) := plot_section s0 COLUMN_NAMES_g_prime
        "Storage Modulus vs. Angular Frequency"
        "Angular Frequency (rad/s)" "Storage Modulus (Pa)" in
      match r1 with
      | Raise e =>
          {| final := s1; fig_g_prime := None; fig_g_double_prime := None;
             fig_viscosity := None; uncaught := Some e |}
      | Ok f1 =>
          let '(r2, s2) := plot_section s1 COLUMN_NAMES_g_double_prime
            "Loss Modulus vs. Angular Frequency"
            "Angular Frequency (rad/s)" "Loss Modulus (Pa)" in
          match r2 with
          | Raise e =>
              {| final := s2; fig_g_prime := fst <$> f1;
                 fig_g_double_prime := None; fig_viscosity := None;
                 uncaught := Some e |}
          | Ok f2 =>
              let '(r3, s3) := plot_section s2 COLUMN_NAMES_complex_viscosity
                "Complex Viscosity vs. Angular Frequency"
                "Angular Frequency (rad/s)" "Complex Viscosity (Pa.s)" in
              match r3 with
              | Raise e =>
                  {| final := s3; fig_g_prime := fst <$> f1;
                     fig_g_double_prime := fst <$> f2; fig_viscosity := None;
                     uncaught := Some e |}
              | Ok f3 =>
                  {| final := s3; fig_g_prime := fst <$> f1;
                     fig_g_double_prime := fst <$> f2;
                     fig_viscosity := fst <$> f3; uncaught := None |}
              end
          end
      end
  end.

End App.

(** ** Notions used in the statements *)

Section Notions.
Context `{Numeric} `{!ExcelReader} `{!Matplotlib}.
Import PyStr.

(** Two labels with the same letters up to case, the second possibly
    with white space around it. *)
Definition same_label (c c' : string) : Prop :=
  ∃ a b, all_space a = true ∧ all_space b = true ∧
         lower c' = lower (a +:+ c +:+ b).

(** Converting the cells at positions [lo .. lo + n - 1] of a row. *)
Definition convert_range (lo n : nat) (r : list cell) : list cell :=
  take lo r ++ (to_numeric <$> take n (drop lo r)) ++ drop (lo + n) r.

(** The files of a batch that load, each with its cleaned table. *)
Definition loaded (files : list UploadedFile) : list (string * DataFrame) :=
  omap (λ f, match load_file f with
             | Ok (_, df_processed) => Some (name f, df_processed)
             | Raise _ => None
             end) files.

(** The error messages of the files of a batch that do not load. *)
Definition failures (files : list UploadedFile) : list message :=
  omap (λ f, match load_file f with
             | Ok _ => None
             | Raise e => Some (ErrorFile (name f) e)
             end) files.

(** The samples of a session, each reference followed to its frame. *)
Definition resolved (s : session) : list (string * option DataFrame) :=
  (λ sample, (sample.2, heap s !! sample.1)) <$> dataframes s.

(** The page is written but never read by the loop: sessions that agree
    on the frames and the two lists keep doing so. *)
Definition same_objects (s s' : session) : Prop :=
  heap s = heap s' ∧ dataframes s = dataframes s' ∧ debug_info s = debug_info s'.

(** The labels of a frame that are text, and whether all are. *)
Definition texts (labels : list Label) : list string :=
  omap (λ l, match l with Text c => Some c | NonText _ => None end) labels.

Definition is_text (l : Label) : bool :=
  match l with Text _ => true | NonText _ => false end.

Definition all_text (df : DataFrame) : bool := forallb is_text (columns df).

(** A label, and a frame, after the assignment of line 29. *)
Definition norm_label (l : Label) : Label :=
  match l with
  | Text c => Text (normalize c)
  | NonText k => NonText k
  end.

Definition norm_frame (df : DataFrame) : DataFrame :=
  set_columns (norm_label <$> columns df) df.

(** [frames'] comes from [frames] by assignments of line 29 only. *)
Definition evolved (frames frames' : gmap nat DataFrame) : Prop :=
  ∀ ref, frames' !! ref = frames !! ref
         ∨ ∃ df, frames !! ref = Some df ∧ df_empty df = false
                 ∧ all_text df = true
                 ∧ frames' !! ref = Some (norm_frame df).

(** Line 41 was reached; an exception left the loop. *)
Definition aborted (e : loop_exit) : bool :=
  match e with Returned _ => true | _ => false end.

Definition raised (e : loop_exit) : option exn :=
  match e with Raised x _ => Some x | _ => None end.



(** One turn of the loop on a frame that is not empty and whose labels
    are text: the test of line 36 in terms of the column resolver, and the
    line that line 37 draws. *)
Definition plottable (x_col y_col : string) (df : DataFrame) : bool :=
  found (column_resolver (texts (columns df)) x_col)
  && found (column_resolver (texts (columns df)) y_col).

Definition series_of (x_col y_col : string) (df : DataFrame) (name : string) : series :=
  {| xdata := getitem (norm_frame df)
                (Text (default "" (column_resolver (texts (columns df)) x_col)));
     ydata := getitem (norm_frame df)
                (Text (default "" (column_resolver (texts (columns df)) y_col)));
     label := name |}.

End Notions.

(** ** A concrete reader, for running the program on examples *)

Module Demo.

(** Splits at every [sep]. *)
Fixpoint split_on (sep : ascii) (s : string) : list string :=
  match s with
  | EmptyString => [EmptyString]
  | String c s' =>
      match split_on sep s' with
      | [] => [String c EmptyString]
      | w :: ws =>
          if decide (c = sep) then EmptyString :: w :: ws
          else String c w :: ws
      end
  end.

Definition digit (c : ascii) : option Z :=
  let n := N_of_ascii c in
  if ((48 <=? n) && (n <=? 57))%N then Some (Z.of_N n - 48)%Z else None.

(** A non-empty string of decimal digits as a number. *)
Fixpoint digits (acc : Z) (s : string) : option Z :=
  match s with
  | EmptyString => Some acc
  | String c s' =>
      match digit c with
      | Some d => digits (10 * acc + d)%Z s'
      | None => None
      end
  end.

Definition parse_number (s : string) : option Z :=
  match s with
  | EmptyString => None
  | _ => digits 0 s
  end.

#[export] Instance numeric : Numeric :=
  {| float := Z; obj := string; coerce := parse_number |}.

(** A cell of the toy format: empty is NaN, digits are a number, the rest
    is text. *)
Definition cell_of (s : string) : cell :=
  match s with
  | EmptyString => NaN
  | _ => match parse_number s with Some z => Num z | None => Obj s end
  end.

(** The toy format: sheets separated by '#', rows by ';', cells by ','.
    A file that does not start with "XL" is rejected. *)
Definition decode (eng : engine) (bytes : string) : result (list (list (list cell))) :=
  match bytes with
  | String "X" (String "L" body) =>
      Ok ((λ sh, (λ r, cell_of <$> split_on "," r) <$> split_on ";" sh)
            <$> split_on "#" body)
  | _ => Raise (ExcelError "not a workbook")
  end.

(** The label of a header cell: its text, the number of a numeric cell,
    a made-up name for an empty one. *)
Definition label_of (v : cell) : Label :=
  match v with
  | Obj s => Text s
  | Num z => NonText z
  | NaN => Text "Unnamed"
  end.

#[export] Instance reader : ExcelReader :=
  {| open_workbook := decode; header_labels := fmap label_of |}.

(** A toy matplotlib: a line is refused when x and y both have several
    columns and not the same number of them; saving always succeeds. *)
Definition toy_ax_plot (line : series) : option exn :=
  if bool_decide (1 < length (xdata line)) && bool_decide (1 < length (ydata line))
     && negb (bool_decide (length (xdata line) = length (ydata line)))
  then Some (MatplotlibError "x and y differ in their number of columns")
  else None.

#[export] Instance matplotlib : Matplotlib :=
  {| ax_plot := toy_ax_plot; savefig := λ fig, Ok ("PNG " +:+ fig_title fig) |}.

Definition good_file : UploadedFile :=
  {| file_id := 1; name := "a.xlsx";
     content := "XLinfo#Sweep; Angular Frequency ,Storage Modulus;rad/s,Pa;1,1000;10,oops;100,100000" |}.

Definition good_again : UploadedFile :=
  {| file_id := 7; name := "a.xlsx"; content := content good_file |}.

Definition other_file : UploadedFile :=
  {| file_id := 2; name := "b.xls";
     content := "XLinfo#Sweep;Angular Frequency,Loss modulus;rad/s,Pa;1,2000;10,20000" |}.

Definition corrupt_file : UploadedFile :=
  {| file_id := 3; name := "broken.xlsx"; content := "PK..." |}.

Definition empty_file : UploadedFile :=
  {| file_id := 4; name := "blank.xlsx";
     content := "XLinfo#Sweep;Angular Frequency,Storage modulus;rad/s,Pa;n/a,n/a" |}.

(** A file whose header row has a number in its second cell. *)
Definition numbered_file : UploadedFile :=
  {| file_id := 5; name := "n.xlsx";
     content := "XLinfo#Sweep;Angular Frequency,1;rad/s,Pa;1,1000" |}.

(** A file that ends with its units row. *)
Definition units_only_file : UploadedFile :=
  {| file_id := 6; name := "u.xlsx";
     content := "XLinfo#Sweep;Angular Frequency,Storage modulus;rad/s,Pa" |}.

(** What [good_file] loads to. *)
Definition good_original : DataFrame :=
  {| columns := [Text " Angular Frequency "; Text "Storage Modulus"];
     rows := [[Obj "rad/s"; Obj "Pa"]; [Num 1%Z; Num 1000%Z];
              [Num 10%Z; Obj "oops"]; [Num 100%Z; Num 100000%Z]] |}.

Definition good_processed : DataFrame :=
  {| columns := [Text " Angular Frequency "; Text "Storage Modulus"];
     rows := [[Num 1%Z; Num 1000%Z]; [Num 100%Z; Num 100000%Z]] |}.

(** Cleaned tables and sample lists over them. *)
Definition sample_a : DataFrame :=
  {| columns := [Text " Angular Frequency (rad/s) "; Text "Storage Modulus (Pa)"];
     rows := [[Num 1%Z; Num 1000%Z]; [Num 10%Z; Num 10000%Z]] |}.

Definition sample_b : DataFrame :=
  {| columns := [Text "Angular Frequency"; Text "Loss modulus"];
     rows := [[Num 1%Z; Num 2000%Z]] |}.

Definition sample_blank : DataFrame :=
  {| columns := [Text "Angular Frequency"; Text "Storage modulus"]; rows := [] |}.

(** The table of a sheet whose second header cell holds the number 1. *)
Definition sample_numbered : DataFrame :=
  {| columns := [Text "Angular Frequency"; NonText 1%Z];
     rows := [[Num 1%Z; Num 1000%Z]] |}.

Definition store : gmap nat DataFrame :=
  {[ 0 := sample_a; 1 := sample_b; 2 := sample_blank; 3 := sample_numbered ]}.

Definition samples : list (nat * string) :=
  [(0, "a.xlsx"); (1, "b.xlsx"); (2, "blank.xlsx")].

Definition good_samples : list (nat * string) :=
  [(0, "a.xlsx"); (2, "blank.xlsx")].

Definition numbered_samples : list (nat * string) :=
  [(3, "n.xlsx"); (1, "b.xlsx")].

Definition blank_numbered_samples : list (nat * string) :=
  [(2, "blank.xlsx"); (3, "n.xlsx")].

End Demo.

(** * Properties *)

(** ** Strings *)

Section StringFacts.
Import PyStr.

Lemma isspace_lower_char c : isspace (lower_char c) = isspace c.
Proof. by destruct c as [[] [] [] [] [] [] [] []]; vm_compute. Qed.

Lemma lower_char_idemp c : lower_char (lower_char c) = lower_char c.
Proof. by destruct c as [[] [] [] [] [] [] [] []]; vm_compute. Qed.

Lemma lower_idemp s : lower (lower s) = lower s.
Proof. induction s as [|c s IH]; simpl; [done|]. by rewrite lower_char_idemp, IH. Qed.

Lemma lower_app s1 s2 : lower (s1 +:+ s2) = lower s1 +:+ lower s2.
Proof. induction s1 as [|c s1 IH]; simpl; [done|]. by rewrite IH. Qed.

Lemma lstrip_lower s : lstrip (lower s) = lower (lstrip s).
Proof.
  induction s as [|c s IH]; simpl; [done|].
  rewrite isspace_lower_char. by destruct (isspace c).
Qed.

Lemma rstrip_lower s : rstrip (lower s) = lower (rstrip s).
Proof.
  induction s as [|c s IH]; simpl; [done|].
  rewrite IH, isspace_lower_char.
  destruct (rstrip s); simpl; [|done]. by destruct (isspace c).
Qed.

Lemma strip_lower s : strip (lower s) = lower (strip s).
Proof. unfold strip. by rewrite lstrip_lower, rstrip_lower. Qed.

(** What [lstrip] leaves does not start with white space. *)
Lemma lstrip_head s c r : lstrip s = String c r → isspace c = false.
Proof.
  induction s as [|a s IH]; simpl; [done|].
  destruct (isspace a) eqn:Ha; [done|]. by intros [= <- _].
Qed.

Lemma lstrip_fixed c r : isspace c = false → lstrip (String c r) = String c r.
Proof. simpl. by intros ->. Qed.

(** [rstrip] keeps a first character that is not white space. *)
Lemma rstrip_head c r :
  isspace c = false → ∃ r', rstrip (String c r) = String c r'.
Proof.
  intros Hc. simpl. rewrite Hc. destruct (rstrip r); eauto.
Qed.

Lemma rstrip_idemp s : rstrip (rstrip s) = rstrip s.
Proof.
  induction s as [|c s IH]; simpl; [done|].
  destruct (rstrip s) as [|a r] eqn:Hr.
  - destruct (isspace c) eqn:Hc; simpl; [done|]. by rewrite Hc.
  - simpl in *. by rewrite IH.
Qed.

Lemma strip_idemp s : strip (strip s) = strip s.
Proof.
  unfold strip. destruct (lstrip s) as [|c r] eqn:Hs; [done|].
  pose proof (lstrip_head _ _ _ Hs) as Hc.
  destruct (rstrip_head c r Hc) as [r' Hr'].
  rewrite Hr', (lstrip_fixed _ _ Hc), <- Hr'. apply rstrip_idemp.
Qed.

(** What [strip] leaves does not start with white space. *)
Lemma strip_head s c r : strip s = String c r → isspace c = false.
Proof.
  unfold strip. destruct (lstrip s) as [|a t] eqn:Hs; [done|].
  pose proof (lstrip_head _ _ _ Hs) as Ha.
  destruct (rstrip_head a t Ha) as [r' ->]. by intros [= <- _].
Qed.

Lemma lstrip_space_app a s : all_space a = true → lstrip (a +:+ s) = lstrip s.
Proof.
  induction a as [|c a IH]; simpl; [done|].
  intros [-> Ha]%andb_true_iff. auto.
Qed.

Lemma rstrip_all_space b : all_space b = true → rstrip b = EmptyString.
Proof.
  induction b as [|c b IH]; simpl; [done|].
  intros [Hc Hb]%andb_true_iff. by rewrite IH, Hc.
Qed.

Lemma rstrip_app_space s b : all_space b = true → rstrip (s +:+ b) = rstrip s.
Proof.
  intros Hb. induction s as [|c s IH]; simpl.
  - by apply rstrip_all_space.
  - by rewrite IH.
Qed.

(** White space around a string does not survive [strip]. *)
Lemma strip_padded a s b :
  all_space a = true → all_space b = true → strip (a +:+ s +:+ b) = strip s.
Proof.
  intros Ha Hb. unfold strip. rewrite (lstrip_space_app _ _ Ha).
  destruct (lstrip s) as [|c r] eqn:Hs.
  - (* [s] is white space only *)
    assert (Hall : ∀ t, lstrip t = EmptyString → all_space t = true).
    { induction t as [|x t IHt]; simpl; [done|].
      destruct (isspace x); [auto|done]. }
    assert (Hcat : ∀ t u, all_space t = true → all_space u = true →
                           all_space (t +:+ u) = true).
    { induction t as [|x t IHt]; simpl; [done|].
      intros u [-> Ht]%andb_true_iff Hu. simpl. auto. }
    pose proof (Hcat _ _ (Hall _ Hs) Hb) as Hsb.
    assert (Hl : ∀ t, all_space t = true → lstrip t = EmptyString).
    { induction t as [|x t IHt]; simpl; [done|].
      intros [-> Ht]%andb_true_iff. auto. }
    by rewrite (Hl _ Hsb).
  - assert (Hl : ∀ t, lstrip t = String c r → lstrip (t +:+ b) = String c r +:+ b).
    { induction t as [|x t IHt]; simpl; [done|].
      destruct (isspace x) eqn:Hx; [auto|].
      by intros [= -> ->]. }
    rewrite (Hl _ Hs). by apply rstrip_app_space.
Qed.

Lemma normalize_idemp c : normalize (normalize c) = normalize c.
Proof.
  unfold normalize. by rewrite strip_lower, strip_idemp, lower_idemp.
Qed.

Lemma normalize_lower c : normalize (lower c) = normalize c.
Proof. unfold normalize. by rewrite strip_lower, lower_idemp. Qed.

Lemma normalize_padded a c b :
  all_space a = true → all_space b = true →
  normalize (a +:+ c +:+ b) = normalize c.
Proof. intros Ha Hb. unfold normalize. by rewrite strip_padded. Qed.

(** A normalized label does not start with white space. *)
Lemma normalize_head s c r : normalize s = String c r → isspace c = false.
Proof.
  unfold normalize. rewrite <- strip_lower. intros Hs. by eapply strip_head.
Qed.

Lemma startswith_spec s p : startswith s p = true ↔ ∃ q, s = p +:+ q.
Proof.
  revert s. induction p as [|a p IH]; intros s; simpl.
  - split; [by exists s|done].
  - destruct s as [|b s].
    + split; [done|]. by intros [q [=]].
    + destruct (decide (a = b)) as [->|Hne].
      * rewrite IH. split; intros [q Hq]; exists q; [by rewrite Hq|].
        by injection Hq.
      * split; [done|]. intros [q [= ? _]]. congruence.
Qed.

(** [t in s] is the occurrence of [t] in [s]. *)
Lemma str_in_spec t s : str_in t s = true ↔ occurs_in t s.
Proof.
  unfold occurs_in. induction s as [|c s IH].
  - simpl. rewrite orb_false_r, startswith_spec. split.
    + intros [q Hq]. by exists EmptyString, q.
    + intros [p [q Hq]]. destruct p; [by exists q|done].
  - cbn [str_in]. rewrite orb_true_iff, startswith_spec, IH. split.
    + intros [[q Hq]|[p [q Hq]]].
      * by exists EmptyString, q.
      * exists (String c p), q. simpl. by rewrite Hq.
    + intros [[|a p] [q Hq]].
      * left. by exists q.
      * right. exists p, q. simpl in Hq. by injection Hq.
Qed.

End StringFacts.

Section StringLengths.
Import PyStr.

Lemma length_rstrip s : String.length (rstrip s) ≤ String.length s.
Proof.
  induction s as [|c s IH]; simpl; [done|].
  destruct (rstrip s); [destruct (isspace c)|]; simpl in *; lia.
Qed.

Lemma length_string_app s t :
  String.length (s +:+ t) = String.length s + String.length t.
Proof. induction s as [|c s IH]; simpl; [done|]. by rewrite IH. Qed.

(** What [strip] leaves does not end with white space. *)
Lemma strip_tail s u b :
  strip s = u +:+ b → all_space b = true → b = EmptyString.
Proof.
  intros Hs Hb.
  assert (Hfix : rstrip (u +:+ b) = u +:+ b).
  { rewrite <- Hs. unfold strip. apply rstrip_idemp. }
  rewrite (rstrip_app_space _ _ Hb) in Hfix.
  pose proof (length_rstrip u) as Hlen.
  rewrite Hfix, length_string_app in Hlen.
  destruct b; [done|]. simpl in Hlen. lia.
Qed.

Lemma all_space_lower a : all_space (lower a) = all_space a.
Proof.
  induction a as [|c a IH]; simpl; [done|].
  by rewrite isspace_lower_char, IH.
Qed.

Lemma normalize_tail s u b :
  normalize s = u +:+ b → all_space b = true → b = EmptyString.
Proof.
  unfold normalize. rewrite <- strip_lower. apply strip_tail.
Qed.

Lemma string_app_cons x (a b : string) : String x a +:+ b = String x (a +:+ b).
Proof. reflexivity. Qed.

Lemma string_app_assoc (a b c : string) : (a +:+ b) +:+ c = a +:+ b +:+ c.
Proof.
  induction a as [|x a IH]; [done|].
  rewrite !string_app_cons. by rewrite IH.
Qed.

End StringLengths.

(** ** The column resolver *)

Section ResolverFacts.
Import PyStr.

Lemma next_match_Some target cols c :
  next_match target cols = Some c ↔
  ∃ i, cols !! i = Some c ∧ str_in target c = true ∧
       ∀ j c', j < i → cols !! j = Some c' → str_in target c' = false.
Proof.
  induction cols as [|a cols IH]; simpl.
  - split; [done|]. by intros [i [? _]].
  - destruct (str_in target a) eqn:Ha.
    + split.
      * intros [= <-]. exists 0. repeat split; [done|]. intros; lia.
      * intros [[|i] [Hi [Hc Hmin]]]; [by injection Hi as ->|].
        specialize (Hmin 0 a). rewrite Ha in Hmin. discriminate Hmin; [lia|done].
    + rewrite IH. split.
      * intros [i [Hi [Hc Hmin]]]. exists (S i). repeat split; [done..|].
        intros [|j] c' Hj Hc'; [by injection Hc' as <-|].
        apply (Hmin j); [lia|done].
      * intros [[|i] [Hi [Hc Hmin]]]; [injection Hi as ->; congruence|].
        exists i. repeat split; [done..|].
        intros j c' Hj Hc'. apply (Hmin (S j)); [lia|done].
Qed.

Lemma next_match_None target cols :
  next_match target cols = None ↔ ∀ c, c ∈ cols → str_in target c = false.
Proof.
  induction cols as [|a cols IH]; simpl.
  - split; [|done]. by intros _ c ?%elem_of_nil.
  - destruct (str_in target a) eqn:Ha.
    + split; [done|]. intros Hall. rewrite Hall in Ha; [done|left].
    + rewrite IH. split.
      * intros Hall c [->|Hc]%elem_of_cons; auto.
      * intros Hall c Hc. apply Hall. by right.
Qed.

(** A label that is found contains the target, so with a target that is
    not empty the test of line 36 fails only on [None]. *)
Lemma found_resolved labels target :
  lower target ≠ EmptyString →
  found (column_resolver labels target) = false →
  column_resolver labels target = None.
Proof.
  intros Hne. unfold column_resolver.
  destruct (next_match _ _) as [c|] eqn:Hc; [|done].
  apply next_match_Some in Hc as [_ [_ [Hin _]]].
  apply str_in_spec in Hin as [p [q ->]]. simpl.
  destruct p; simpl; [|done]. destruct (lower target); [done|]. done.
Qed.

(** Normalizing the labels beforehand changes nothing: the assignment of
    line 29 can be repeated. *)
Lemma column_resolver_normalized labels target :
  column_resolver (normalize <$> labels) target = column_resolver labels target.
Proof.
  unfold column_resolver. f_equal. rewrite <- list_fmap_compose.
  apply list_fmap_ext. intros _ c _. apply normalize_idemp.
Qed.

End ResolverFacts.

Section ResolverClaims.
Import PyStr.

Lemma column_resolver_first_match_aux (labels : list string) (target : string) :
  match column_resolver labels target with
  | Some c =>
      ∃ i col, labels !! i = Some col ∧ c = normalize col ∧
        occurs_in (lower target) (normalize col) ∧
        ∀ j col', j < i → labels !! j = Some col' →
                  ¬ occurs_in (lower target) (normalize col')
  | None =>
      ∀ col, col ∈ labels → ¬ occurs_in (lower target) (normalize col)
  end.
Proof.
  unfold column_resolver.
  destruct (next_match _ _) as [c|] eqn:Hc.
  - apply next_match_Some in Hc as [i [Hi [Hin Hmin]]].
    apply list_lookup_fmap_Some in Hi as [col [-> Hcol]].
    exists i, col. repeat split; [done|by apply str_in_spec|].
    intros j col' Hj Hcol' Hocc%str_in_spec.
    rewrite (Hmin j (normalize col')) in Hocc; [done|done|].
    by rewrite list_lookup_fmap, Hcol'.
  - intros col Hcol Hocc%str_in_spec.
    rewrite next_match_None in Hc.
    rewrite Hc in Hocc; [done|]. by apply list_elem_of_fmap_2.
Qed.

(** C4 (amended). The column resolver returns the first label, in the
    order of the table's columns, whose stripped, lower-cased form contains
    the lower-cased target (which is not trimmed) as a substring, in that
    stripped, lower-cased form, and [None] when the stripped, lower-cased
    form of no label contains the lower-cased target. *)
Theorem column_resolver_first_match (labels : list string) (target : string) :
  match column_resolver labels target with
  | Some c =>
      ∃ i col, labels !! i = Some col ∧ c = lower (strip col) ∧
        occurs_in (lower target) (lower (strip col)) ∧
        ∀ j col', j < i → labels !! j = Some col' →
                  ¬ occurs_in (lower target) (lower (strip col'))
  | None =>
      ∀ col, col ∈ labels → ¬ occurs_in (lower target) (lower (strip col))
  end.
Proof. exact (column_resolver_first_match_aux labels target). Qed.

Lemma same_label_normalize c c' : same_label c c' → normalize c' = normalize c.
Proof.
  intros (a & b & Ha & Hb & Hc). unfold normalize.
  by rewrite <- !strip_lower, Hc, strip_lower, strip_padded, strip_lower.
Qed.

(** C5 (amended). Column resolution ignores case (in labels and target)
    and white space around a label, and is substring-based; a column
    named " Angular Frequency (rad/s) " resolves against the logical name
    "Angular Frequency". *)
Theorem column_resolution_fuzzy (labels labels' : list string) (target target' : string) :
  Forall2 same_label labels labels' →
  lower target' = lower target →
  column_resolver labels' target' = column_resolver labels target
  ∧ (is_Some (column_resolver labels target) ↔
     ∃ c, c ∈ labels ∧ occurs_in (lower target) (lower (strip c)))
  ∧ column_resolver [" Angular Frequency (rad/s) "] "Angular Frequency"
    = Some "angular frequency (rad/s)".
Proof.
  intros Hlabels Htarget. split; [|split].
  - unfold column_resolver. rewrite Htarget. f_equal.
    induction Hlabels as [|c c' l l' Hc _ IH]; [done|].
    rewrite !fmap_cons. by rewrite IH, (same_label_normalize _ _ Hc).
  - unfold column_resolver. split.
    + intros [c Hc].
      apply next_match_Some in Hc as [i [Hi [Hin _]]].
      apply list_lookup_fmap_Some in Hi as [col [-> Hcol]].
      exists col. split; [by eapply list_elem_of_lookup_2|].
      by apply str_in_spec.
    + intros [c [Hc Hocc%str_in_spec]].
      destruct (next_match _ _) eqn:Hn; [by eexists|].
      rewrite next_match_None in Hn.
      change (lower (strip c)) with (normalize c) in Hocc.
      rewrite (Hn (normalize c)) in Hocc; [done|].
      by apply list_elem_of_fmap_2.
  - reflexivity.
Qed.

(** C6 (amended). Before matching, every label is brought to lower-case,
    trimmed form, and the target to lower case only: a resolved label is
    lower-case and trimmed and contains the lower-cased target, and a
    target that starts (or ends) with white space is matched only where
    that white space follows (or precedes) other characters of the
    label. *)
Theorem column_resolver_normalization (labels : list string) (target c : string) :
  column_resolver labels target = Some c →
  (lower c = c ∧ strip c = c ∧ occurs_in (lower target) c)
  ∧ (∀ a t, target = a +:+ t → all_space a = true → a ≠ EmptyString →
       ∃ p q, p ≠ EmptyString ∧ c = p +:+ lower a +:+ lower t +:+ q)
  ∧ (∀ t b, target = t +:+ b → all_space b = true → b ≠ EmptyString →
       ∃ p q, q ≠ EmptyString ∧ c = p +:+ lower t +:+ lower b +:+ q).
Proof.
  unfold column_resolver. intros Hc.
  apply next_match_Some in Hc as [i [Hi [Hin _]]].
  apply list_lookup_fmap_Some in Hi as [col [-> Hcol]].
  apply str_in_spec in Hin as Hocc.
  split; [|split].
  - repeat split; [| |done].
    + unfold normalize. apply lower_idemp.
    + unfold normalize. by rewrite <- strip_lower, strip_idemp.
  - intros a t -> Ha Hne. destruct Hocc as [p [q Hpq]].
    rewrite lower_app, string_app_assoc in Hpq.
    exists p, q. split; [|done]. intros ->. simpl in Hpq.
    destruct a as [|x a]; [done|]. simpl in Ha, Hpq.
    apply andb_true_iff in Ha as [Hx _].
    apply normalize_head in Hpq. by rewrite isspace_lower_char, Hx in Hpq.
  - intros t b -> Hb Hne. destruct Hocc as [p [q Hpq]].
    rewrite lower_app, string_app_assoc in Hpq.
    exists p, q. split; [|done]. intros ->.
    assert (Hq : lower b +:+ EmptyString = lower b).
    { clear. induction (lower b) as [|x s IH]; [done|].
      by rewrite string_app_cons, IH. }
    rewrite Hq, <- !string_app_assoc in Hpq.
    apply normalize_tail in Hpq; [|by rewrite all_space_lower].
    by destruct b.
Qed.

End ResolverClaims.

(** ** The loader *)

Section LoaderFacts.
Context `{ExcelReader}.

Lemma convert_range_step lo n r :
  convert_range (S lo) n (<[lo := to_numeric (default NaN (r !! lo))]> r)
  = convert_range lo (S n) r.
Proof.
  unfold convert_range. revert r.
  induction lo as [|lo IH]; intros [|x r]; simpl;
    rewrite ?take_nil; [done..|].
  f_equal. exact (IH r).
Qed.

Lemma convert_range_0 lo r : convert_range lo 0 r = r.
Proof.
  unfold convert_range. rewrite Nat.add_0_r. simpl. apply take_drop.
Qed.

Lemma convert_range_all r : convert_range 0 (length r) r = to_numeric <$> r.
Proof.
  unfold convert_range. simpl.
  by rewrite firstn_all, drop_all, app_nil_r.
Qed.

Lemma positions_spec c labels j :
  j ∈ positions c labels ↔ labels !! j = Some c.
Proof.
  unfold positions. rewrite list_elem_of_filter, elem_of_seq. split.
  - by intros [? _].
  - intros Hj. split; [done|]. apply lookup_lt_Some in Hj. lia.
Qed.

Lemma positions_middle c pre suf j :
  positions c (pre ++ c :: suf) = [j] → j = length pre.
Proof.
  intros Hpos.
  assert (Hin : length pre ∈ positions c (pre ++ c :: suf)).
  { apply positions_spec. by rewrite list_lookup_middle. }
  rewrite Hpos in Hin. by apply list_elem_of_singleton in Hin.
Qed.

Lemma set_column_at_rows j f (df : DataFrame) :
  rows (set_column_at j (f <$> column_at j df) df)
  = (λ r, <[j := f (default NaN (r !! j))]> r) <$> rows df.
Proof.
  unfold set_column_at, column_at. simpl.
  induction (rows df) as [|r rs IH]; [done|].
  rewrite !fmap_cons. simpl. f_equal. exact IH.
Qed.

(** The loop of lines 112-113, run over the labels [suf] that follow
    [pre]: it converts the cells below these labels, and only them. *)
Lemma to_numeric_columns_rows suf pre (df df' : DataFrame) :
  columns df = pre ++ suf →
  to_numeric_columns suf df = Ok df' →
  columns df' = columns df ∧
  rows df' = convert_range (length pre) (length suf) <$> rows df.
Proof.
  revert pre df. induction suf as [|c suf IH]; intros pre df Hcols; simpl.
  - intros [= <-]. split; [done|].
    rewrite <- (list_fmap_id (rows df)) at 1.
    apply list_fmap_ext. intros _ r _. by rewrite convert_range_0.
  - unfold to_numeric_column. rewrite Hcols.
    destruct (positions c (pre ++ c :: suf)) as [|j [|]] eqn:Hpos; [done| |done].
    apply positions_middle in Hpos as ->. simpl. intros Hrec.
    apply (IH (pre ++ [c])) in Hrec as [Hc Hr].
    2:{ simpl. by rewrite Hcols, <- app_assoc. }
    split; [simpl in Hc; congruence|].
    rewrite Hr, set_column_at_rows, <- list_fmap_compose.
    apply list_fmap_ext. intros _ r _. simpl.
    rewrite length_app. simpl. rewrite Nat.add_1_r.
    apply convert_range_step.
Qed.

Lemma length_fit n (r : list cell) : length (fit n r) = n.
Proof.
  unfold fit. rewrite length_take, length_app, length_replicate. lia.
Qed.

Lemma fit_id (r : list cell) : fit (length r) r = r.
Proof. unfold fit. by rewrite take_app_length. Qed.

(** The frames [read_excel] makes are rectangular. *)
Lemma read_excel_rectangular io eng sheet_name header df :
  read_excel io eng sheet_name header = Ok df →
  Forall (λ r, length r = length (columns df)) (rows df).
Proof.
  unfold read_excel. destruct (open_workbook _ _) as [wb|]; simpl; [|done].
  destruct (wb !! sheet_name) as [[|r0 sheet]|]; [| |done].
  { intros [= <-]. constructor. }
  destruct ((r0 :: sheet) !! header) as [hdr|]; [|done].
  intros [= <-]. simpl. apply Forall_fmap, Forall_true.
  intros r. apply length_fit.
Qed.

(** [load_file], step by step. *)
Lemma load_file_Ok uploaded_file df_original df_processed :
  load_file uploaded_file = Ok (df_original, df_processed) ↔
  read_original uploaded_file = Ok df_original ∧
  ∃ converted,
    to_numeric_columns (columns df_original) (drop_units_row df_original)
      = Ok converted ∧
    df_processed = dropna converted.
Proof.
  unfold load_file.
  destruct (read_original uploaded_file) as [df0|e]; simpl;
    [|split; [done|by intros [? _]]].
  destruct (to_numeric_columns _ _) as [conv|e] eqn:Hconv; simpl.
  - split.
    + intros [= <- <-]. rewrite Hconv. eauto.
    + intros [[= <-] [conv' [Hc ->]]]. rewrite Hconv in Hc. by injection Hc as <-.
  - split; [done|]. intros [[= <-] [conv' [Hc _]]]. by rewrite Hconv in Hc.
Qed.

(** The rows of the cleaned table: the rows below the units row, every
    cell converted, those with a NaN left out. *)
Lemma load_file_rows uploaded_file df_original df_processed :
  load_file uploaded_file = Ok (df_original, df_processed) →
  columns df_processed = columns df_original ∧
  rows df_processed
  = filter (Forall notna)
      ((λ r : list cell, to_numeric <$> r) <$> tail (rows df_original)).
Proof.
  intros [Hread [conv [Hconv ->]]]%load_file_Ok.
  apply read_excel_rectangular in Hread as Hrect.
  apply (to_numeric_columns_rows _ []) in Hconv as [Hc Hr]; [|done].
  simpl in *. split; [done|]. rewrite Hr. f_equal.
  apply list_fmap_ext. intros i r Hi.
  assert (Hlen : length r = length (columns df_original)).
  { apply list_elem_of_lookup_2 in Hi.
    rewrite Forall_forall in Hrect. apply Hrect.
    destruct (rows df_original); [by apply elem_of_nil in Hi|]. by right. }
  rewrite <- Hlen. apply convert_range_all.
Qed.

Lemma to_numeric_num (v : cell) : notna (to_numeric v) → is_num (to_numeric v).
Proof. destruct v as [x|o|]; simpl; [done| |done]. by destruct (coerce o). Qed.

End LoaderFacts.

Section LoaderClaims.
Context `{ExcelReader}.

(** C2. Every row the loader retains in the cleaned table has a number in
    every column (no NaN), and an input row with a cell that fails the
    numeric conversion is dropped as a whole: the retained rows are, in
    order, the rows below the units row in which every cell converts. *)
Theorem cleaned_rows_are_numeric uploaded_file df_original df_processed :
  load_file uploaded_file = Ok (df_original, df_processed) →
  (∀ row, row ∈ rows df_processed →
     length row = length (columns df_processed) ∧ Forall is_num row)
  ∧ rows df_processed
    = filter (Forall notna)
        ((λ r : list cell, to_numeric <$> r) <$> tail (rows df_original))
  ∧ (∀ r v, r ∈ tail (rows df_original) → v ∈ r → to_numeric v = NaN →
       (to_numeric <$> r) ∉ rows df_processed).
Proof.
  intros Hload. pose proof (load_file_rows _ _ _ Hload) as [Hcols Hrows].
  apply load_file_Ok in Hload as [Hread _].
  apply read_excel_rectangular in Hread.
  split; [|split; [done|]].
  - intros row. rewrite Hrows, list_elem_of_filter, list_elem_of_fmap.
    intros [Hna [r [-> Hr]]]. split.
    + rewrite length_fmap, Hcols. rewrite Forall_forall in Hread.
      apply Hread. destruct (rows df_original); [by apply elem_of_nil in Hr|].
      by right.
    + rewrite Forall_forall in Hna. apply Forall_forall.
      intros v Hv. apply list_elem_of_fmap in Hv as Hv'.
      destruct Hv' as [w [-> _]]. apply to_numeric_num. by apply Hna.
  - intros r v Hr Hv Hnan. rewrite Hrows, list_elem_of_filter.
    intros [Hna _]. rewrite Forall_forall in Hna.
    specialize (Hna (to_numeric v)). rewrite Hnan in Hna.
    apply Hna. rewrite <- Hnan. by apply list_elem_of_fmap_2.
Qed.

(** C3. The loader reads the sheet at index 1, names the columns after
    the row at index 1, takes the rows below it as data and drops the
    first of them (the units row), whatever it holds, before the numeric
    cleaning. *)
Theorem loader_layout uploaded_file sheet0 title_row header_row data more_sheets :
  open_workbook (engine_for (name uploaded_file)) (content uploaded_file)
    = Ok (sheet0 :: (title_row :: header_row :: data) :: more_sheets) →
  let labels := header_labels header_row in
  let df_original :=
    {| columns := labels; rows := fit (length labels) <$> data |} in
  let below_units :=
    {| columns := labels; rows := fit (length labels) <$> tail data |} in
  read_original uploaded_file = Ok df_original
  ∧ drop_units_row df_original = below_units
  ∧ load_file uploaded_file
    = (converted ← to_numeric_columns labels below_units;
       mret (df_original, dropna converted)).
Proof.
  intros Hopen labels df_original below_units.
  assert (Hread : read_original uploaded_file = Ok df_original).
  { unfold read_original, read_excel. by rewrite Hopen. }
  assert (Hdrop : drop_units_row df_original = below_units).
  { unfold drop_units_row, iloc_from_1, below_units. simpl.
    f_equal. by destruct data. }
  split; [done|split; [done|]].
  unfold load_file. rewrite Hread. simpl. by rewrite Hdrop.
Qed.

End LoaderClaims.

(** ** The loop over the uploaded files *)

Section BatchFacts.
Context `{ExcelReader}.

Lemma load_files_snoc files f :
  load_files (files ++ [f]) = load_step (load_files files) f.
Proof. unfold load_files. by rewrite foldl_app. Qed.

Lemma omap_snoc {A B} (g : A → option B) l x :
  omap g (l ++ [x]) = omap g l ++ option_list (g x).
Proof.
  rewrite omap_app. simpl. by destruct (g x).
Qed.

Lemma resolved_insert_new (s : session) ref df :
  ref ∉ dom (heap s) →
  Forall (λ x, is_Some x.2) (resolved s) →
  (λ sample : nat * string, (sample.2, <[ref := df]> (heap s) !! sample.1))
    <$> dataframes s
  = resolved s.
Proof.
  unfold resolved. intros Hnew Hall. apply list_fmap_ext.
  intros i [r nm] Hi. simpl. f_equal.
  rewrite Forall_fmap, Forall_lookup in Hall.
  specialize (Hall i _ Hi). simpl in Hall.
  apply lookup_insert_ne. intros <-. by apply elem_of_dom in Hall.
Qed.

(** What the loop of line 106 leaves: the tables of the files that load,
    in order, each under a reference of its own, and one error message
    per file that does not. *)
Lemma load_files_spec files :
  let s := load_files files in
  resolved s = (λ x, (x.1, Some x.2)) <$> loaded files
  ∧ page s = failures files
  ∧ NoDup (dataframes s).*1.
Proof.
  induction files as [|f files IH] using rev_ind.
  - repeat split; constructor.
  - destruct IH as (Hres & Hpage & Hnd).
    rewrite load_files_snoc. unfold loaded, failures in *.
    rewrite !omap_snoc. unfold load_step.
    assert (Hall : Forall (λ x, is_Some x.2) (resolved (load_files files))).
    { rewrite Hres. apply Forall_fmap, Forall_true. intros x. by eexists. }
    destruct (load_file f) as [[df_original df_processed]|e]; simpl.
    + rewrite app_nil_r. split; [|split; [done|]].
      * unfold resolved at 1. simpl. rewrite !fmap_app. simpl.
        rewrite lookup_insert_eq, resolved_insert_new; [|apply is_fresh|done].
        by rewrite Hres.
      * rewrite fmap_app. simpl. apply NoDup_app. split; [done|].
        split; [|apply NoDup_singleton].
        intros ref Href Hnew%list_elem_of_singleton.
        apply list_elem_of_fmap in Href as [[r nm] [Hr Hin]].
        apply list_elem_of_lookup_1 in Hin as [i Hi].
        unfold resolved in Hall. rewrite Forall_fmap, Forall_lookup in Hall.
        specialize (Hall i _ Hi). simpl in Hall, Hr.
        apply elem_of_dom in Hall. rewrite <- Hr, Hnew in Hall.
        by apply is_fresh in Hall.
    + rewrite app_nil_r. by rewrite <- Hpage.
Qed.

Lemma load_step_same_objects s s' f :
  same_objects s s' → same_objects (load_step s f) (load_step s' f).
Proof.
  intros (Hh & Hd & Hi). unfold load_step, same_objects.
  destruct (load_file f) as [[o p]|e]; simpl; by rewrite ?Hh, ?Hd, ?Hi.
Qed.

Lemma foldl_load_step_same_objects files s s' :
  same_objects s s' →
  same_objects (foldl load_step s files) (foldl load_step s' files).
Proof.
  revert s s'. induction files as [|f files IH]; intros s s' Hs; simpl; [done|].
  by apply IH, load_step_same_objects.
Qed.

Lemma loaded_app l1 l2 : loaded (l1 ++ l2) = loaded l1 ++ loaded l2.
Proof. unfold loaded. apply omap_app. Qed.

Lemma failures_app l1 l2 : failures (l1 ++ l2) = failures l1 ++ failures l2.
Proof. unfold failures. apply omap_app. Qed.

End BatchFacts.

Section BatchClaims.
Context `{ExcelReader}.

Lemma loaded_cons_Ok f files df_original df_processed :
  load_file f = Ok (df_original, df_processed) →
  loaded (f :: files) = (name f, df_processed) :: loaded files.
Proof. intros Hf. unfold loaded. simpl. by rewrite Hf. Qed.

Lemma resolved_lookup (s : session) i nm df :
  resolved s !! i = Some (nm, Some df) →
  ∃ ref, dataframes s !! i = Some (ref, nm) ∧ heap s !! ref = Some df.
Proof.
  unfold resolved. intros [[ref nm'] [Heq Hi]]%list_lookup_fmap_Some.
  simpl in Heq. injection Heq as -> Hdf. by exists ref.
Qed.

(** C8. When loading one file of a batch raises, the error is shown with
    the name of the file, the file is left out, and every other file of
    the batch is processed as without it: the samples are the tables of
    the files that load, before and after the failing one. *)
Theorem failing_file_is_skipped (before after : list UploadedFile)
    (f : UploadedFile) (e : exn) :
  load_file f = Raise e →
  let s := load_files (before ++ f :: after) in
  page s = failures before ++ ErrorFile (name f) e :: failures after
  ∧ resolved s = (λ x, (x.1, Some x.2)) <$> (loaded before ++ loaded after)
  ∧ same_objects s (load_files (before ++ after)).
Proof.
  intros Hf s. destruct (load_files_spec (before ++ f :: after)) as (Hres & Hpage & _).
  fold s in Hres, Hpage. split; [|split].
  - rewrite Hpage, failures_app. f_equal. unfold failures. simpl. by rewrite Hf.
  - rewrite Hres, loaded_app. do 2 f_equal. unfold loaded. simpl. by rewrite Hf.
  - unfold s, load_files. rewrite !foldl_app. simpl.
    apply foldl_load_step_same_objects.
    unfold load_step. rewrite Hf. by repeat split.
Qed.

End BatchClaims.

(** ** The plot builder *)

Section PlotFacts.
Context `{Numeric} `{!ExcelReader} `{!Matplotlib}.
Import PyStr.

Lemma texts_cons (c : string) (labels : list Label) :
  texts (Text c :: labels) = c :: texts labels.
Proof. reflexivity. Qed.

Lemma texts_cons_nontext (k : Z) (labels : list Label) :
  texts (NonText k :: labels) = texts labels.
Proof. reflexivity. Qed.

(** Line 29 on labels that are all text, and on labels that are not. *)
Lemma normalized_labels_text (labels : list Label) :
  forallb is_text labels = true →
  normalized_labels labels = Ok (normalize <$> texts labels)
  ∧ Text <$> (normalize <$> texts labels) = norm_label <$> labels.
Proof.
  induction labels as [|[c|k] labels IH]; [done| |done].
  intros Hall. simpl in Hall. destruct (IH Hall) as [Hn Heq].
  rewrite texts_cons, !fmap_cons, Heq. split; [|done].
  cbn [normalized_labels]. by rewrite Hn.
Qed.

Lemma normalized_labels_nontext (labels : list Label) :
  forallb is_text labels = false →
  normalized_labels labels = Raise AttributeError.
Proof.
  induction labels as [|[c|k] labels IH]; simpl; [done| |done].
  intros Hall. by rewrite (IH Hall).
Qed.

Lemma norm_label_idemp l : norm_label (norm_label l) = norm_label l.
Proof. destruct l; simpl; [|done]. by rewrite normalize_idemp. Qed.

Lemma norm_frame_idemp df : norm_frame (norm_frame df) = norm_frame df.
Proof.
  unfold norm_frame, set_columns. simpl. f_equal.
  rewrite <- list_fmap_compose. apply list_fmap_ext.
  intros _ c _. apply norm_label_idemp.
Qed.

Lemma df_empty_norm_frame df : df_empty (norm_frame df) = df_empty df.
Proof. unfold df_empty. simpl. by destruct (columns df). Qed.

Lemma all_text_norm_frame df : all_text (norm_frame df) = all_text df.
Proof.
  unfold all_text. simpl. induction (columns df) as [|[c|k] l IH]; simpl; done.
Qed.

Lemma texts_norm_label (labels : list Label) :
  texts (norm_label <$> labels) = normalize <$> texts labels.
Proof.
  induction labels as [|[c|k] l IH]; [done| |].
  - rewrite fmap_cons. cbn [norm_label]. by rewrite !texts_cons, fmap_cons, IH.
  - rewrite fmap_cons. cbn [norm_label]. by rewrite !texts_cons_nontext.
Qed.

Lemma column_resolver_norm_frame df target :
  column_resolver (texts (columns (norm_frame df))) target
  = column_resolver (texts (columns df)) target.
Proof. simpl. rewrite texts_norm_label. apply column_resolver_normalized. Qed.

Lemma evolved_refl frames : evolved frames frames.
Proof. intros ref. by left. Qed.

(** One more assignment of line 29, on a frame that is not empty and has
    text labels. *)
Lemma evolved_insert store frames ref df :
  evolved store frames → frames !! ref = Some df →
  df_empty df = false → all_text df = true →
  evolved store (<[ref := norm_frame df]> frames).
Proof.
  intros Hev Href Hne Htext l. destruct (decide (ref = l)) as [<-|Hl].
  - rewrite lookup_insert_eq. right.
    destruct (Hev ref) as [Heq|[d (Hd & Hde & Hdt & Hfd)]].
    + exists df. by rewrite <- Heq.
    + exists d. rewrite Hfd in Href. injection Href as <-.
      by rewrite norm_frame_idemp.
  - rewrite lookup_insert_ne by done. apply Hev.
Qed.

(** What an evolved store holds for a frame of the original store. *)
Lemma evolved_lookup store frames ref df :
  evolved store frames → store !! ref = Some df →
  ∃ df', frames !! ref = Some df' ∧ norm_frame df' = norm_frame df
         ∧ df_empty df' = df_empty df ∧ all_text df' = all_text df.
Proof.
  intros Hev Href. destruct (Hev ref) as [Heq|[d (Hd & _ & _ & Hfd)]].
  - exists df. by rewrite Heq.
  - rewrite Href in Hd. injection Hd as <-. exists (norm_frame df).
    by rewrite norm_frame_idemp, df_empty_norm_frame, all_text_norm_frame.
Qed.

Lemma evolved_lookup_None store frames ref :
  evolved store frames → store !! ref = None → frames !! ref = None.
Proof.
  intros Hev Hnone. destruct (Hev ref) as [Heq|[d (Hd & _)]]; [|congruence].
  by rewrite Heq.
Qed.

Lemma resolver_of_norm_frame df df' target :
  norm_frame df' = norm_frame df →
  column_resolver (texts (columns df')) target
  = column_resolver (texts (columns df)) target.
Proof.
  intros Heq. rewrite <- (column_resolver_norm_frame df'), Heq.
  apply column_resolver_norm_frame.
Qed.

Lemma plottable_norm_frame x_col y_col df df' :
  norm_frame df' = norm_frame df →
  plottable x_col y_col df' = plottable x_col y_col df.
Proof.
  intros Heq. unfold plottable.
  by rewrite !(resolver_of_norm_frame _ _ _ Heq).
Qed.

Lemma series_of_norm_frame x_col y_col df df' name :
  norm_frame df' = norm_frame df →
  series_of x_col y_col df' name = series_of x_col y_col df name.
Proof.
  intros Heq. unfold series_of.
  by rewrite Heq, !(resolver_of_norm_frame _ _ _ Heq).
Qed.

(** One turn of the loop, case by case. *)
Lemma plot_loop_step_missing ref name rest x_col y_col s :
  frames s !! ref = None →
  plot_loop ((ref, name) :: rest) x_col y_col s = plot_loop rest x_col y_col s.
Proof. intros Href. simpl. by rewrite Href. Qed.

Lemma plot_loop_step_empty ref name rest x_col y_col s df :
  frames s !! ref = Some df → df_empty df = true →
  plot_loop ((ref, name) :: rest) x_col y_col s =
  plot_loop rest x_col y_col
    {| frames := frames s; ax_lines := ax_lines s;
       plot_success_count := plot_success_count s;
       warnings := warnings s ++ [WarnNoData name] |}.
Proof. intros Href He. simpl. by rewrite Href, He. Qed.

Lemma plot_loop_step_nontext ref name rest x_col y_col s df :
  frames s !! ref = Some df → df_empty df = false → all_text df = false →
  plot_loop ((ref, name) :: rest) x_col y_col s = Raised AttributeError s.
Proof.
  intros Href Hne Htext. simpl.
  by rewrite Href, Hne, (normalized_labels_nontext _ Htext).
Qed.

Lemma plot_loop_step_text ref name rest x_col y_col s df :
  frames s !! ref = Some df → df_empty df = false → all_text df = true →
  plot_loop ((ref, name) :: rest) x_col y_col s =
  if plottable x_col y_col df then
    match ax_plot (series_of x_col y_col df name) with
    | Some e =>
        Raised e
          {| frames := <[ref := norm_frame df]> (frames s);
             ax_lines := ax_lines s;
             plot_success_count := plot_success_count s;
             warnings := warnings s |}
    | None =>
        plot_loop rest x_col y_col
          {| frames := <[ref := norm_frame df]> (frames s);
             ax_lines := ax_lines s ++ [series_of x_col y_col df name];
             plot_success_count := S (plot_success_count s);
             warnings := warnings s |}
    end
  else
    Returned
      {| frames := <[ref := norm_frame df]> (frames s);
         ax_lines := ax_lines s;
         plot_success_count := plot_success_count s;
         warnings := warnings s ++ [WarnNoColumn name x_col y_col] |}.
Proof.
  intros Href Hne Htext. simpl. rewrite Href, Hne.
  destruct (normalized_labels_text _ Htext) as [-> Hcols]. simpl.
  unfold plottable, series_of, column_resolver, norm_frame.
  by rewrite Hcols.
Qed.

Lemma plot_loop_app l1 l2 x_col y_col s :
  plot_loop (l1 ++ l2) x_col y_col s =
  match plot_loop l1 x_col y_col s with
  | Exhausted s1 => plot_loop l2 x_col y_col s1
  | other => other
  end.
Proof.
  revert s. induction l1 as [|[ref name] l1 IH]; intros s; simpl; [done|].
  destruct (frames s !! ref) as [df|]; [|apply IH].
  destruct (df_empty df); [apply IH|].
  destruct (normalized_labels (columns df)) as [cols|e]; [|done].
  destruct (found _ && found _); [|done].
  destruct (ax_plot _); [done|apply IH].
Qed.

(** The three cases of a frame that is not empty. *)
Lemma nonempty_cases ref name rest x_col y_col s df :
  frames s !! ref = Some df → df_empty df = false →
  (all_text df = false
   ∧ plot_loop ((ref, name) :: rest) x_col y_col s = Raised AttributeError s)
  ∨ (all_text df = true ∧
     ∃ s', frames s' = <[ref := norm_frame df]> (frames s)
           ∧ (∀ w, w ∈ warnings s → w ∈ warnings s')
           ∧ (plot_loop ((ref, name) :: rest) x_col y_col s = Returned s'
              ∨ (∃ e, plot_loop ((ref, name) :: rest) x_col y_col s = Raised e s')
              ∨ plot_loop ((ref, name) :: rest) x_col y_col s
                = plot_loop rest x_col y_col s')).
Proof.
  intros Href Hne. destruct (all_text df) eqn:Htext.
  - right. split; [done|].
    rewrite (plot_loop_step_text _ _ _ _ _ _ _ Href Hne Htext).
    destruct (plottable x_col y_col df).
    + destruct (ax_plot _) as [e|].
      * exists {| frames := <[ref := norm_frame df]> (frames s);
                  ax_lines := ax_lines s;
                  plot_success_count := plot_success_count s;
                  warnings := warnings s |}.
        split; [done|]. split; [done|]. right. left. by exists e.
      * exists {| frames := <[ref := norm_frame df]> (frames s);
                  ax_lines := ax_lines s ++ [series_of x_col y_col df name];
                  plot_success_count := S (plot_success_count s);
                  warnings := warnings s |}.
        split; [done|]. split; [done|]. by right; right.
    + exists {| frames := <[ref := norm_frame df]> (frames s);
                ax_lines := ax_lines s;
                plot_success_count := plot_success_count s;
                warnings := warnings s ++ [WarnNoColumn name x_col y_col] |}.
      split; [done|]. split; [|by left].
      intros w Hw. simpl. apply elem_of_app. by left.
  - left. split; [done|]. by apply (plot_loop_step_nontext _ _ _ _ _ _ df).
Qed.

(** The loop changes the store by assignments of line 29 only. *)
Lemma plot_loop_evolved store l x_col y_col s :
  evolved store (frames s) →
  evolved store (frames (state_of (plot_loop l x_col y_col s))).
Proof.
  revert s. induction l as [|[ref name] l IH]; intros s Hev; [done|].
  destruct (frames s !! ref) as [df|] eqn:Href;
    [|by rewrite plot_loop_step_missing; [apply IH|]].
  destruct (df_empty df) eqn:Hempty;
    [by rewrite (plot_loop_step_empty _ _ _ _ _ _ _ Href Hempty); apply IH|].
  destruct (nonempty_cases ref name l x_col y_col s df Href Hempty)
    as [[_ ->]|[Htext (s' & Hs' & _ & [->|[[e ->]| ->]])]]; simpl; [done|..].
  - rewrite Hs'. by apply evolved_insert.
  - rewrite Hs'. by apply evolved_insert.
  - apply IH. rewrite Hs'. by apply evolved_insert.
Qed.

(** A frame that line 29 does not change stays as it is. *)
Lemma plot_loop_keeps_normalized l x_col y_col s ref df :
  frames s !! ref = Some df → norm_frame df = df →
  frames (state_of (plot_loop l x_col y_col s)) !! ref = Some df.
Proof.
  revert s. induction l as [|[r name] l IH]; intros s Href Hfix; [done|].
  assert (Hins : ∀ d, frames s !! r = Some d →
                      <[r := norm_frame d]> (frames s) !! ref = Some df).
  { intros d Hd. destruct (decide (r = ref)) as [->|Hne].
    - rewrite lookup_insert_eq. rewrite Href in Hd. injection Hd as <-.
      by rewrite Hfix.
    - by rewrite lookup_insert_ne. }
  destruct (frames s !! r) as [d|] eqn:Hr;
    [|by rewrite plot_loop_step_missing; [apply IH|]].
  destruct (df_empty d) eqn:Hempty;
    [by rewrite (plot_loop_step_empty _ _ _ _ _ _ _ Hr Hempty); apply IH|].
  destruct (nonempty_cases r name l x_col y_col s d Hr Hempty)
    as [[_ ->]|[Htext (s' & Hs' & _ & [->|[[e ->]| ->]])]]; simpl; [done|..].
  - rewrite Hs'. by apply Hins.
  - rewrite Hs'. by apply Hins.
  - apply IH; [|done]. rewrite Hs'. by apply Hins.
Qed.

(** The loop leaves alone the frames its list does not refer to. *)
Lemma plot_loop_frame l x_col y_col s ref :
  ref ∉ l.*1 →
  frames (state_of (plot_loop l x_col y_col s)) !! ref = frames s !! ref.
Proof.
  revert s. induction l as [|[r name] l IH]; intros s Hnot; [done|].
  rewrite fmap_cons in Hnot. apply not_elem_of_cons in Hnot as [Hne Hnot].
  simpl in Hne.
  destruct (frames s !! r) as [d|] eqn:Hr;
    [|by rewrite plot_loop_step_missing; [apply IH|]].
  destruct (df_empty d) eqn:Hempty;
    [by rewrite (plot_loop_step_empty _ _ _ _ _ _ _ Hr Hempty), IH|].
  destruct (nonempty_cases r name l x_col y_col s d Hr Hempty)
    as [[_ ->]|[Htext (s' & Hs' & _ & [->|[[e ->]| ->]])]]; simpl; [done|..].
  - rewrite Hs'. by apply lookup_insert_ne.
  - rewrite Hs'. by apply lookup_insert_ne.
  - rewrite IH by done. rewrite Hs'. by apply lookup_insert_ne.
Qed.



End PlotFacts.

Section PlotClaims.
Context `{Numeric} `{!ExcelReader} `{!Matplotlib}.
Import PyStr.




Lemma plot_section_unfold (s : session) (y_col title x_label y_label : string) :
  let out := create_rheology_plot (heap s) (dataframes s)
               COLUMN_NAMES_frequency y_col title x_label y_label in
  plot_section s y_col title x_label y_label
  = (out.1.1, {| heap := out.1.2; dataframes := dataframes s;
                 debug_info := debug_info s; page := page s ++ out.2 |}).
Proof.
  intros out. unfold plot_section. fold out. by destruct out as [[fig st] w].
Qed.

Lemma norm_frame_text (df : DataFrame) :
  all_text df = true →
  norm_frame df
  = {| columns := (λ c, Text (lower (strip c))) <$> texts (columns df);
       rows := rows df |}.
Proof.
  intros Htext. unfold norm_frame, set_columns. f_equal.
  destruct (normalized_labels_text _ Htext) as [_ <-].
  by rewrite <- list_fmap_compose.
Qed.

(** C10 (amended). The plot builder assigns to the frames of its caller:
    every table that is not empty, whose labels are text and that the loop
    gets to has its column labels replaced by their stripped, lower-cased
    forms (its rows are as before), so that after the call it no longer
    carries a label that was not in that form, and a later call on the same
    frames finds and keeps the new labels. Every other frame is as before
    or has been through the same assignment; a frame the list does not
    refer to is as before. A plot section of the page hands the frames on
    to the next one and leaves the sample list and the debugging
    information, made when the files were loaded, as they were. *)
Theorem plot_overwrites_columns
    (store : gmap nat DataFrame) (samples : list (nat * string))
    (x_col y_col title x_label y_label : string)
    (i ref : nat) (name : string) (df : DataFrame) :
  samples !! i = Some (ref, name) →
  store !! ref = Some df →
  df_empty df = false →
  all_text df = true →
  aborted (plot_loop (take i samples) x_col y_col (plot_start store)) = false →
  raised (plot_loop (take i samples) x_col y_col (plot_start store)) = None →
  let store' :=
    (create_rheology_plot store samples x_col y_col title x_label y_label).1.2 in
  let df' :=
    {| columns := (λ c, Text (lower (strip c))) <$> texts (columns df);
       rows := rows df |} in
  store' !! ref = Some df'
  ∧ (columns df' ≠ columns df →
     columns <$> store' !! ref ≠ Some (columns df))
  ∧ (∀ x_col' y_col' title' x_label' y_label',
       (create_rheology_plot store' samples
          x_col' y_col' title' x_label' y_label').1.2 !! ref = Some df')
  ∧ evolved store store'
  ∧ (∀ other, other ∉ samples.*1 → store' !! other = store !! other)
  ∧ (∀ (s : session) y_col' title' x_label' y_label',
       let s' := (plot_section s y_col' title' x_label' y_label').2 in
       heap s' = (create_rheology_plot (heap s) (dataframes s)
                    COLUMN_NAMES_frequency y_col' title' x_label' y_label').1.2
       ∧ dataframes s' = dataframes s
       ∧ debug_info s' = debug_info s).
Proof.
  intros Hi Href Hne Htext Hreach Hnoraise store' df'.
  assert (Hdf' : df' = norm_frame df) by by rewrite norm_frame_text.
  assert (Hlook : store' !! ref = Some (norm_frame df)).
  { unfold store', create_rheology_plot. simpl.
    rewrite <- (take_drop_middle samples i (ref, name) Hi), plot_loop_app.
    pose proof (plot_loop_evolved store (take i samples) x_col y_col
                  (plot_start store) (evolved_refl _)) as Hev.
    destruct (plot_loop (take i samples) x_col y_col (plot_start store))
      as [s1|s1|x s1]; [|done..].
    simpl in Hev.
    destruct (evolved_lookup _ _ _ _ Hev Href) as (d & Hd & Hnorm & Hemp & Ht).
    assert (Hfix : norm_frame (norm_frame df) = norm_frame df)
      by apply norm_frame_idemp.
    destruct (nonempty_cases ref name (drop (S i) samples) x_col y_col s1 d Hd)
      as [[Hbad _]|[_ (s' & Hs' & _ & [->|[[e ->]| ->]])]];
      [congruence|congruence|..]; simpl.
    - by rewrite Hs', Hnorm, lookup_insert_eq.
    - by rewrite Hs', Hnorm, lookup_insert_eq.
    - apply plot_loop_keeps_normalized; [|done].
      by rewrite Hs', Hnorm, lookup_insert_eq. }
  rewrite Hdf'.
  split; [exact Hlook|split; [|split; [|split; [|split]]]].
  - intros Hdiff. rewrite Hlook. simpl. intros [= Heq]. by apply Hdiff.
  - intros x_col' y_col' title' x_label' y_label'.
    unfold create_rheology_plot. simpl.
    apply (plot_loop_keeps_normalized samples x_col' y_col'
             (plot_start store') ref (norm_frame df)); [done|].
    apply norm_frame_idemp.
  - unfold store', create_rheology_plot. simpl.
    apply plot_loop_evolved, evolved_refl.
  - intros other Hother. unfold store', create_rheology_plot. simpl.
    by apply (plot_loop_frame samples x_col y_col (plot_start store)).
  - intros s y_col' title' x_label' y_label' s'. unfold s'.
    by rewrite plot_section_unfold.
Qed.

End PlotClaims.

(** ** The program on examples *)

Section Examples.
Import PyStr Demo.

(** C5, the example as the specification has it: the abbreviated label
    does not contain "angular frequency", and is not resolved. *)
Lemma ang_frequency_not_resolved :
  column_resolver [" Ang. Frequency (rad/s) "] "Angular Frequency" = None.
Proof. reflexivity. Qed.

(** C6: white space before the target is kept, and the target then
    matches other columns than without it. *)
Lemma target_is_not_trimmed :
  column_resolver ["Angular Frequency"] " Angular Frequency" = None
  ∧ column_resolver ["Angular Frequency"] "Angular Frequency"
    = Some "angular frequency".
Proof. split; reflexivity. Qed.

(** C4: the trimmed, lower-cased target occurs in the second label, which
    the claim would have returned; the resolver, which does not trim the
    target, finds nothing. *)
Lemma trimmed_target_is_not_matched :
  occurs_in (lower (strip "Storage modulus "))
            (lower (strip "Storage modulus"))
  ∧ column_resolver ["Angular Frequency"; "Storage modulus"] "Storage modulus "
    = None.
Proof. split; [by exists EmptyString, EmptyString|reflexivity]. Qed.


(** C10: after a run the table of the sample has lower-case, trimmed
    labels, while what the diagnostics panel shows, the entry of
    [debug_info] made at load time, still has the labels as read, in its
    list of columns and in the head of the cleaned table. *)
Lemma diagnostics_keep_original_headers :
  let r := run [good_file] in
  uncaught r = None
  ∧ (columns <$> heap (final r) !! 0)
    = Some [Text "angular frequency"; Text "storage modulus"]
  ∧ ((λ d, columns (processed_head d)) <$> debug_info (final r))
    = [[Text " Angular Frequency "; Text "Storage Modulus"]]
  ∧ (original_columns <$> debug_info (final r))
    = [[Text " Angular Frequency "; Text "Storage Modulus"]].
Proof. vm_compute. repeat split; reflexivity. Qed.

(** C1 (code bug). The file [numbered_file] loads to a table whose second
    label is the number 1. With the sample of such a table before a sample
    that lacks the y-column, the claim has the builder return no result;
    line 29 raises on the number instead, in the builder and, uncaught, in
    the run of the page. *)
Theorem label_error_preempts_null_result :
  let out := create_rheology_plot store numbered_samples
               "Angular Frequency" "Storage modulus" "G'" "w" "Pa" in
  (∃ df_original, load_file numbered_file = Ok (df_original, sample_numbered))
  ∧ (1, "b.xlsx") ∈ numbered_samples
  ∧ store !! 1 = Some sample_b
  ∧ df_empty sample_b = false
  ∧ column_resolver (texts (columns sample_b)) "Storage modulus" = None
  ∧ out.1.1 = Raise AttributeError
  ∧ out.1.1 ≠ Ok None
  ∧ uncaught (run [numbered_file; other_file]) = Some AttributeError.
Proof.
  cbv zeta. split; [eexists; vm_compute; reflexivity|].
  split; [right; left|].
  repeat split; try (vm_compute; reflexivity).
  vm_compute. discriminate.
Qed.

Lemma cleaned_rows_are_numeric_witness :
  load_file good_file = Ok (good_original, good_processed)
  ∧ ∀ row, row ∈ rows good_processed →
      length row = length (columns good_processed) ∧ Forall is_num row.
Proof.
  assert (Hload : load_file good_file = Ok (good_original, good_processed))
    by (vm_compute; reflexivity).
  split; [exact Hload|].
  exact (proj1 (cleaned_rows_are_numeric good_file good_original
                  good_processed Hload)).
Defined.

Lemma loader_layout_witness :
  read_original good_file = Ok good_original.
Proof.
  pose proof (loader_layout good_file
                [[Obj "info"]] [Obj "Sweep"]
                [Obj " Angular Frequency "; Obj "Storage Modulus"]
                [[Obj "rad/s"; Obj "Pa"]; [Num 1%Z; Num 1000%Z];
                 [Num 10%Z; Obj "oops"]; [Num 100%Z; Num 100000%Z]]
                [] eq_refl) as Hw.
  cbv zeta in Hw. destruct Hw as [Hread _]. exact Hread.
Defined.

Lemma column_resolution_fuzzy_witness :
  column_resolver ["  ANGULAR frequency "] "angular FREQUENCY"
  = column_resolver ["Angular Frequency"] "Angular Frequency".
Proof.
  refine (proj1 (column_resolution_fuzzy
                   ["Angular Frequency"] ["  ANGULAR frequency "]
                   "Angular Frequency" "angular FREQUENCY" _ eq_refl)).
  constructor; [|constructor].
  exists "  ", " ". repeat split; reflexivity.
Defined.

Lemma column_resolver_normalization_witness :
  lower "angular frequency (rad/s)" = "angular frequency (rad/s)"
  ∧ strip "angular frequency (rad/s)" = "angular frequency (rad/s)"
  ∧ occurs_in (lower "Frequency") "angular frequency (rad/s)".
Proof.
  exact (proj1 (column_resolver_normalization
                  [" Angular Frequency (rad/s) "] "Frequency"
                  "angular frequency (rad/s)" eq_refl)).
Defined.

Lemma failing_file_is_skipped_witness :
  let s := load_files ([good_file] ++ corrupt_file :: [other_file]) in
  page s = failures [good_file]
           ++ ErrorFile "broken.xlsx" (ExcelError "not a workbook")
           :: failures [other_file]
  ∧ resolved s
    = (λ x, (x.1, Some x.2)) <$> (loaded [good_file] ++ loaded [other_file])
  ∧ same_objects s (load_files ([good_file] ++ [other_file])).
Proof.
  exact (failing_file_is_skipped [good_file] [other_file] corrupt_file
           (ExcelError "not a workbook") eq_refl).
Defined.

Lemma plot_overwrites_columns_witness :
  (create_rheology_plot store samples
     "Angular Frequency" "Storage modulus" "G'" "w" "Pa").1.2 !! 0
  = Some {| columns := [Text "angular frequency (rad/s)";
                        Text "storage modulus (pa)"];
            rows := rows sample_a |}.
Proof.
  pose proof (plot_overwrites_columns store samples
                "Angular Frequency" "Storage modulus" "G'" "w" "Pa"
                0 0 "a.xlsx" sample_a eq_refl) as Hw.
  cbv zeta in Hw. apply Hw.
  - vm_compute. reflexivity.
  - reflexivity.
  - reflexivity.
  - reflexivity.
  - reflexivity.
Defined.

End Examples.
